(** * Fiducial odometry publisher (tfr_sensor/src/fiducial_odom_publisher.cpp)

    A shallow embedding of [FiducialOdom::process_odometry], the image
    callback that turns one fiducial detection into a broadcast transform and
    an odometry message, together with the parts of tf2's LinearMath that the
    callback calls.

    Layout:
    - [Scalar]: the arithmetic of [tf2Scalar] (a C++ [double]) as an interface;
      every definition of the callback is written over it, so the structural
      theorems hold for any interpretation of the arithmetic.
    - [tf2]: Vector3, Quaternion, Matrix3x3 and Transform.
    - [msgs]: the ROS message records the callback reads and writes.
    - [Odom]: the node state, the callback monad and [process_odometry].
    - [Ideal]: the interpretation of [Scalar] by the real numbers, used for
      closed examples of statements that hold in every arithmetic.
    - [Double]: the interpretation of [Scalar] by the binary64 floats of the
      kernel, the arithmetic the node runs on, used to evaluate the callback
      on concrete inputs. *)

From Stdlib Require Import ZArith NArith List String Bool Reals Lra Lia.
From Stdlib Require PrimFloat FloatOps FloatAxioms.
Import ListNotations.

Set Implicit Arguments.

(** ** Scalars *)

(** [tf2Scalar] is [double].  The operations are the ones the callback and
    tf2 use: literals, the four operations, unary minus, comparisons, and the
    libm functions behind [tf2Sqrt], [tf2Fabs], [tf2Asin], [tf2Cos] and
    [tf2Atan2]. *)
Class Scalar (T : Type) : Type := {
  s_of_Z : Z -> T;            (* integer-valued literals and integer conversion *)
  s_5e_3 : T;                 (* the literal 5e-3 *)
  s_half : T;                 (* the literal 0.5 *)
  s_1e_9 : T;                 (* the literal 1e-9 *)
  s_pi : T;                   (* TF2SIMD_PI *)
  s_add : T -> T -> T;
  s_sub : T -> T -> T;
  s_mul : T -> T -> T;
  s_div : T -> T -> T;
  s_neg : T -> T;
  s_sqrt : T -> T;
  s_fabs : T -> T;
  s_asin : T -> T;
  s_cos : T -> T;
  s_atan2 : T -> T -> T;
  s_eqb : T -> T -> bool;     (* == *)
  s_ltb : T -> T -> bool;     (* <  *)
  s_leb : T -> T -> bool      (* <= *)
}.

Declare Scope scalar_scope.
Delimit Scope scalar_scope with sc.
Infix "+" := s_add : scalar_scope.
Infix "-" := s_sub : scalar_scope.
Infix "*" := s_mul : scalar_scope.
Infix "/" := s_div : scalar_scope.
Notation "- x" := (s_neg x) : scalar_scope.
Infix "==" := s_eqb (at level 70, no associativity) : scalar_scope.
Infix "<?" := s_ltb : scalar_scope.
Infix "<=?" := s_leb : scalar_scope.
Notation "0" := (s_of_Z 0%Z) : scalar_scope.
Notation "1" := (s_of_Z 1%Z) : scalar_scope.
Notation "2" := (s_of_Z 2%Z) : scalar_scope.

(** Identities of the arithmetic that the statements below rely on.  Each
    one holds for IEEE doubles and for the real numbers. *)
Class ScalarLaws (T : Type) `{Scalar T} : Prop := {
  eqb_0_0 : (0 == 0)%sc = true;
  eqb_1_0 : (1 == 0)%sc = false;
  eqb_5e_3_0 : (s_5e_3 == 0)%sc = false;
  mul_minus_1 : forall x : T, (x * s_of_Z (-1))%sc = (- x)%sc;
  add_0_0 : (0 + 0)%sc = (0 : T)%sc;
  mul_1e_9_0 : (s_1e_9 * 0)%sc = 0%sc;
  sub_0_r : forall x : T, (x - 0)%sc = x
}.


(** ** tf2 LinearMath *)

Module tf2.
Section LinearMath.
Context {T : Type} `{Scalar T}.
Local Open Scope scalar_scope.

Record Vector3 : Type := mkVector3 { x : T; y : T; z : T }.

Record Quaternion : Type := mkQuaternion { qx : T; qy : T; qz : T; qw : T }.

(** [m_el[0]], [m_el[1]], [m_el[2]]: the three rows. *)
Record Matrix3x3 : Type := mkRows { row0 : Vector3; row1 : Vector3; row2 : Vector3 }.

Record Transform : Type := mkTransform { m_basis : Matrix3x3; m_origin : Vector3 }.

(** The nine-scalar constructor, row major. *)
Definition mkMatrix (xx xy xz yx yy yz zx zy zz : T) : Matrix3x3 :=
  mkRows (mkVector3 xx xy xz) (mkVector3 yx yy yz) (mkVector3 zx zy zz).

(** [Matrix3x3::getIdentity] *)
Definition getIdentity : Matrix3x3 :=
  mkMatrix 1 0 0 0 1 0 0 0 1.

(** *** Vector3 *)

Definition dot (a b : Vector3) : T :=
  x a * x b + y a * y b + z a * z b.

Definition vsub (a b : Vector3) : Vector3 :=
  mkVector3 (x a - x b) (y a - y b) (z a - z b).

Definition vneg (a : Vector3) : Vector3 :=
  mkVector3 (- x a) (- y a) (- z a).

(** [operator*(const Vector3&, const tf2Scalar&)] *)
Definition vscale (v : Vector3) (s : T) : Vector3 :=
  mkVector3 (x v * s) (y v * s) (z v * s).

(** [operator/(const Vector3& v, const tf2Scalar& s)]: [v * (1.0 / s)].  The
    [tf2FullAssert(s != 0)] before it compiles to nothing. *)
Definition vdiv (v : Vector3) (s : T) : Vector3 :=
  vscale v (1 / s).

(** *** Quaternion *)

(** [Quaternion::length2], through [Quaternion::dot]. *)
Definition length2 (q : Quaternion) : T :=
  qx q * qx q + qy q * qy q + qz q * qz q + qw q * qw q.


(** *** Matrix3x3 *)

Definition tdotx (m : Matrix3x3) (v : Vector3) : T :=
  x (row0 m) * x v + x (row1 m) * y v + x (row2 m) * z v.

Definition tdoty (m : Matrix3x3) (v : Vector3) : T :=
  y (row0 m) * x v + y (row1 m) * y v + y (row2 m) * z v.

Definition tdotz (m : Matrix3x3) (v : Vector3) : T :=
  z (row0 m) * x v + z (row1 m) * y v + z (row2 m) * z v.

(** [operator*(const Matrix3x3&, const Vector3&)] *)
Definition mat_vec (m : Matrix3x3) (v : Vector3) : Vector3 :=
  mkVector3 (dot (row0 m) v) (dot (row1 m) v) (dot (row2 m) v).

(** [operator*(const Vector3&, const Matrix3x3&)] *)
Definition vec_mat (v : Vector3) (m : Matrix3x3) : Vector3 :=
  mkVector3 (tdotx m v) (tdoty m v) (tdotz m v).

(** [operator*(const Matrix3x3&, const Matrix3x3&)] *)
Definition mat_mul (m1 m2 : Matrix3x3) : Matrix3x3 :=
  mkMatrix
    (tdotx m2 (row0 m1)) (tdoty m2 (row0 m1)) (tdotz m2 (row0 m1))
    (tdotx m2 (row1 m1)) (tdoty m2 (row1 m1)) (tdotz m2 (row1 m1))
    (tdotx m2 (row2 m1)) (tdoty m2 (row2 m1)) (tdotz m2 (row2 m1)).

Definition transpose (m : Matrix3x3) : Matrix3x3 :=
  mkMatrix
    (x (row0 m)) (x (row1 m)) (x (row2 m))
    (y (row0 m)) (y (row1 m)) (y (row2 m))
    (z (row0 m)) (z (row1 m)) (z (row2 m)).

(** [Matrix3x3::transposeTimes]: this^T * m. *)
Definition transposeTimes (a m : Matrix3x3) : Matrix3x3 :=
  mkMatrix
    (x (row0 a) * x (row0 m) + x (row1 a) * x (row1 m) + x (row2 a) * x (row2 m))
    (x (row0 a) * y (row0 m) + x (row1 a) * y (row1 m) + x (row2 a) * y (row2 m))
    (x (row0 a) * z (row0 m) + x (row1 a) * z (row1 m) + x (row2 a) * z (row2 m))
    (y (row0 a) * x (row0 m) + y (row1 a) * x (row1 m) + y (row2 a) * x (row2 m))
    (y (row0 a) * y (row0 m) + y (row1 a) * y (row1 m) + y (row2 a) * y (row2 m))
    (y (row0 a) * z (row0 m) + y (row1 a) * z (row1 m) + y (row2 a) * z (row2 m))
    (z (row0 a) * x (row0 m) + z (row1 a) * x (row1 m) + z (row2 a) * x (row2 m))
    (z (row0 a) * y (row0 m) + z (row1 a) * y (row1 m) + z (row2 a) * y (row2 m))
    (z (row0 a) * z (row0 m) + z (row1 a) * z (row1 m) + z (row2 a) * z (row2 m)).

(** [Matrix3x3::setRotation(const Quaternion&)].  The
    [tf2FullAssert(d != 0)] compiles to nothing. *)
Definition setRotation (q : Quaternion) : Matrix3x3 :=
  let d := length2 q in
  let s := 2 / d in
  let xs := qx q * s in
  let ys := qy q * s in
  let zs := qz q * s in
  let wx := qw q * xs in
  let wy := qw q * ys in
  let wz := qw q * zs in
  let xx := qx q * xs in
  let xy := qx q * ys in
  let xz := qx q * zs in
  let yy := qy q * ys in
  let yz := qy q * zs in
  let zz := qz q * zs in
  mkMatrix
    (1 - (yy + zz)) (xy - wz) (xz + wy)
    (xy + wz) (1 - (xx + zz)) (yz - wx)
    (xz - wy) (yz + wx) (1 - (xx + yy)).

(** [Matrix3x3::getRotation(Quaternion&)]: the branch on the trace, and in
    the other branch the index [i] of the largest diagonal entry with
    [j = (i+1) % 3], [k = (i+2) % 3]. *)
Definition getRotation (m : Matrix3x3) : Quaternion :=
  let m00 := x (row0 m) in let m01 := y (row0 m) in let m02 := z (row0 m) in
  let m10 := x (row1 m) in let m11 := y (row1 m) in let m12 := z (row1 m) in
  let m20 := x (row2 m) in let m21 := y (row2 m) in let m22 := z (row2 m) in
  let trace := m00 + m11 + m22 in
  if 0 <? trace then
    let s := s_sqrt (trace + 1) in
    let t3 := s * s_half in
    let s := s_half / s in
    mkQuaternion ((m21 - m12) * s) ((m02 - m20) * s) ((m10 - m01) * s) t3
  else if (if m00 <? m11 then m11 <? m22 else m00 <? m22) then
    (* i = 2, j = 0, k = 1 *)
    let s := s_sqrt (m22 - m00 - m11 + 1) in
    let t2 := s * s_half in
    let s := s_half / s in
    mkQuaternion ((m02 + m20) * s) ((m12 + m21) * s) t2 ((m10 - m01) * s)
  else if m00 <? m11 then
    (* i = 1, j = 2, k = 0 *)
    let s := s_sqrt (m11 - m22 - m00 + 1) in
    let t1 := s * s_half in
    let s := s_half / s in
    mkQuaternion ((m01 + m10) * s) t1 ((m21 + m12) * s) ((m02 - m20) * s)
  else
    (* i = 0, j = 1, k = 2 *)
    let s := s_sqrt (m00 - m11 - m22 + 1) in
    let t0 := s * s_half in
    let s := s_half / s in
    mkQuaternion t0 ((m10 + m01) * s) ((m20 + m02) * s) ((m21 - m12) * s).

(** [Matrix3x3::getRPY(roll, pitch, yaw)], that is [getEulerYPR] with
    [solution_number = 1]; the result is the vector (roll, pitch, yaw). *)
Definition getRPY (m : Matrix3x3) : Vector3 :=
  let m20 := x (row2 m) in
  if 1 <=? s_fabs m20 then
    let delta := s_atan2 (y (row2 m)) (z (row2 m)) in
    if m20 <? 0
    then mkVector3 delta (s_pi / 2) 0
    else mkVector3 delta (- s_pi / 2) 0
  else
    let pitch := - s_asin m20 in
    let roll := s_atan2 (y (row2 m) / s_cos pitch) (z (row2 m) / s_cos pitch) in
    let yaw := s_atan2 (x (row1 m) / s_cos pitch) (x (row0 m) / s_cos pitch) in
    mkVector3 roll pitch yaw.

(** *** Transform *)

(** [Transform(const Quaternion& q, const Vector3& c)] *)
Definition ofQuaternion (q : Quaternion) (c : Vector3) : Transform :=
  mkTransform (setRotation q) c.

(** [Transform::operator()(const Vector3&)] *)
Definition apply (t : Transform) (v : Vector3) : Vector3 :=
  mkVector3
    (dot (row0 (m_basis t)) v + x (m_origin t))
    (dot (row1 (m_basis t)) v + y (m_origin t))
    (dot (row2 (m_basis t)) v + z (m_origin t)).

(** [Transform::operator*(const Transform&)] *)
Definition mul (t1 t2 : Transform) : Transform :=
  mkTransform (mat_mul (m_basis t1) (m_basis t2)) (apply t1 (m_origin t2)).

(** [Transform::inverse] *)
Definition inverse (t : Transform) : Transform :=
  let inv := transpose (m_basis t) in
  mkTransform inv (mat_vec inv (vneg (m_origin t))).

(** [Transform::inverseTimes]: the inverse of this transform times [t]. *)
Definition inverseTimes (t0 t : Transform) : Transform :=
  let v := vsub (m_origin t) (m_origin t0) in
  mkTransform (transposeTimes (m_basis t0) (m_basis t)) (vec_mat v (m_basis t0)).

(** [Transform::getRotation] *)
Definition getRotationT (t : Transform) : Quaternion :=
  getRotation (m_basis t).

End LinearMath.
Arguments Vector3 : clear implicits.
Arguments Quaternion : clear implicits.
Arguments Matrix3x3 : clear implicits.
Arguments Transform : clear implicits.
End tf2.

(** ** ROS time and messages *)

Module ros.

(** [ros::Time]: seconds and nanoseconds, both [uint32_t]. *)
Record Time : Type := mkTime { sec : N; nsec : N }.

(** [ros::Time(0)], also the value of a value-initialised stamp. *)
Definition Time0 : Time := mkTime 0 0.

(** [TimeBase::toSec]: [(double)sec + 1e-9 * (double)nsec]. *)
Definition toSec {T : Type} `{Scalar T} (t : Time) : T :=
  (s_of_Z (Z.of_N (sec t)) + s_1e_9 * s_of_Z (Z.of_N (nsec t)))%sc.

(** [TimeBase::operator<=] *)
Definition time_le (a b : Time) : bool :=
  if (sec a <? sec b)%N then true
  else if (sec a =? sec b)%N && (nsec a <=? nsec b)%N then true
  else false.

End ros.

Module msgs.
Import ros.
Section Messages.
Context {T : Type} `{Scalar T}.
Local Open Scope scalar_scope.

(** std_msgs/Header *)
Record Header : Type := mkHeader { seq : N; stamp : Time; frame_id : string }.

(** geometry_msgs/Point *)
Record Point : Type := mkPoint { px : T; py : T; pz : T }.

(** geometry_msgs/Quaternion *)
Record Quaternion : Type := mkQuaternion { ox : T; oy : T; oz : T; ow : T }.

(** geometry_msgs/Pose *)
Record Pose : Type := mkPose { position : Point; orientation : Quaternion }.

(** geometry_msgs/PoseStamped *)
Record PoseStamped : Type := mkPoseStamped { ps_header : Header; ps_pose : Pose }.

(** geometry_msgs/Vector3 *)
Record Vector3 : Type := mkVector3 { vx : T; vy : T; vz : T }.

(** geometry_msgs/Transform *)
Record Transform : Type := mkTransform { translation : Vector3; rotation : Quaternion }.

(** geometry_msgs/TransformStamped *)
Record TransformStamped : Type := mkTransformStamped {
  ts_header : Header;
  ts_child_frame_id : string;
  ts_transform : Transform
}.

(** geometry_msgs/Twist *)
Record Twist : Type := mkTwist { linear : Vector3; angular : Vector3 }.

(** geometry_msgs/PoseWithCovariance; the covariance is a
    [boost::array<double, 36>], row major. *)
Record PoseWithCovariance : Type := mkPoseWithCovariance {
  pc_pose : Pose;
  pc_covariance : list T
}.

(** geometry_msgs/TwistWithCovariance *)
Record TwistWithCovariance : Type := mkTwistWithCovariance {
  tc_twist : Twist;
  tc_covariance : list T
}.

(** nav_msgs/Odometry *)
Record Odometry : Type := mkOdometry {
  od_header : Header;
  od_child_frame_id : string;
  od_pose : PoseWithCovariance;
  od_twist : TwistWithCovariance
}.

(** tfr_msgs/ArucoResult, the two fields the callback reads. *)
Record ArucoResult : Type := mkArucoResult {
  number_found : Z;
  relative_pose : PoseStamped
}.

(** Value initialisation ([T{}]): every number is zero, every string empty. *)
Definition Header0 : Header := mkHeader 0 Time0 EmptyString.
Definition Pose0 : Pose := mkPose (mkPoint 0 0 0) (mkQuaternion 0 0 0 0).
Definition PoseStamped0 : PoseStamped := mkPoseStamped Header0 Pose0.

(** [tf2::fromMsg(const geometry_msgs::Pose&, tf2::Transform&)], which
    [tf2::convert] resolves to: the origin is the position and the basis is
    set from the orientation. *)
Definition convert (p : Pose) : tf2.Transform T :=
  tf2.ofQuaternion
    (tf2.mkQuaternion (ox (orientation p)) (oy (orientation p))
                      (oz (orientation p)) (ow (orientation p)))
    (tf2.mkVector3 (px (position p)) (py (position p)) (pz (position p))).

(** [tf2::toMsg(const tf2::Vector3&)] *)
Definition toMsg (v : tf2.Vector3 T) : Vector3 :=
  mkVector3 (tf2.x v) (tf2.y v) (tf2.z v).

End Messages.
Arguments Point : clear implicits.
Arguments Quaternion : clear implicits.
Arguments Pose : clear implicits.
Arguments PoseStamped : clear implicits.
Arguments Vector3 : clear implicits.
Arguments Transform : clear implicits.
Arguments TransformStamped : clear implicits.
Arguments Twist : clear implicits.
Arguments PoseWithCovariance : clear implicits.
Arguments TwistWithCovariance : clear implicits.
Arguments Odometry : clear implicits.
Arguments ArucoResult : clear implicits.
End msgs.

(** ** The node *)

Module Odom.
Import ros msgs.
Section Node.
Context {T : Type} `{Scalar T}.
Local Open Scope scalar_scope.

(** [tf2::doTransform] on [geometry_msgs::PoseStamped], from
    tf2_geometry_msgs.  It is a library function whose body is not part of
    the node; the callback is written over any such function. *)
Variable doTransform : PoseStamped T -> TransformStamped T -> PoseStamped T.

(** The data members of [class FiducialOdom] that the callback touches.
    Only [last_pose] is ever written. *)
Record FiducialOdom : Type := mkFiducialOdom {
  last_pose : PoseStamped T;
  camera_frame : string;
  footprint_frame : string;
  bin_frame : string;
  odometry_frame : string
}.

(** The constructor's member initialisers: [last_pose{}] and the four frame
    names. *)
Definition init (c_frame f_frame b_frame o_frame : string) : FiducialOdom :=
  mkFiducialOdom PoseStamped0 c_frame f_frame b_frame o_frame.

(** What one run of the callback does to the outside world and to the member
    [last_pose], in program order. *)
Inductive Action : Type :=
| SendGoal                                           (* client.sendGoal(goal) *)
| LookupTransform (target source : string) (t : Time) (* tf_buffer.lookupTransform *)
| RosWarn (msg : string)                             (* ROS_WARN *)
| Sleep (seconds : T)                                (* ros::Duration(s).sleep() *)
| SendTransform (tf : TransformStamped T)            (* broadcaster.sendTransform *)
| Publish (odom : Odometry T)                        (* publisher.publish *)
| StoreLastOrientationW (w : T)                      (* last_pose.pose.orientation.w = w *)
| StoreLastPose (p : PoseStamped T).                 (* last_pose = p *)

(** What the collaborators answer during one run of the callback: whether
    the action client got a result, the result, the outcome of the transform
    lookup ([inl what] when it throws [tf2::TransformException]) and the
    clock, [now k] being the value of the k-th call of [ros::Time::now()]. *)
Record Cycle : Type := mkCycle {
  waitForResult : bool;
  getResult : ArucoResult T;
  lookupTransform : string + TransformStamped T;
  now : nat -> Time
}.

(** *** The callback monad: member state, actions, early [return] *)

Inductive Flow (A : Type) : Type :=
| Next (a : A)
| Returned.
Arguments Returned {A}.

Definition M (A : Type) : Type :=
  FiducialOdom -> Flow A * FiducialOdom * list Action.

Definition ret {A : Type} (a : A) : M A :=
  fun st => (Next a, st, []).

Definition bind {A B : Type} (m : M A) (k : A -> M B) : M B :=
  fun st =>
    let '(r, st1, tr1) := m st in
    match r with
    | Next a => let '(r2, st2, tr2) := k a st1 in (r2, st2, tr1 ++ tr2)
    | Returned => (Returned, st1, tr1)
    end.

(** [return;] *)
Definition return_ {A : Type} : M A :=
  fun st => (Returned, st, []).

Definition emit (a : Action) : M unit :=
  fun st => (Next tt, st, [a]).

Definition this : M FiducialOdom :=
  fun st => (Next st, st, []).

Definition set_orientation_w (p : PoseStamped T) (w : T) : PoseStamped T :=
  mkPoseStamped (ps_header p)
    (mkPose (position (ps_pose p))
       (mkQuaternion (ox (orientation (ps_pose p))) (oy (orientation (ps_pose p)))
                     (oz (orientation (ps_pose p))) w)).

Definition with_last_pose (st : FiducialOdom) (p : PoseStamped T) : FiducialOdom :=
  mkFiducialOdom p (camera_frame st) (footprint_frame st) (bin_frame st)
                 (odometry_frame st).

(** [last_pose.pose.orientation.w = w] *)
Definition store_last_orientation_w (w : T) : M unit :=
  fun st => (Next tt, with_last_pose st (set_orientation_w (last_pose st) w),
             [StoreLastOrientationW w]).

(** [last_pose = p] *)
Definition store_last_pose (p : PoseStamped T) : M unit :=
  fun st => (Next tt, with_last_pose st p, [StoreLastPose p]).

(** Sequencing, written as in the callback. *)
Notation "x <- m ;; k" := (bind m (fun x => k))
  (at level 61, m at next level, right associativity).
Notation "m ;; k" := (bind m (fun _ => k))
  (at level 61, right associativity).

(** [tf2::doTransform] on [geometry_msgs::PoseStamped] in the form that
    goes through [tf2::Transform]: the output pose is [t * Transform(r, v)],
    the output header takes the stamp and the frame of the transform.  It is
    the instance of the library function used in the closed examples. *)
Definition doTransform_tf2 (t_in : PoseStamped T)
    (transform : TransformStamped T) : PoseStamped T :=
  let tr := ts_transform transform in
  let t :=
    tf2.ofQuaternion
      (tf2.mkQuaternion (ox (rotation tr)) (oy (rotation tr))
                        (oz (rotation tr)) (ow (rotation tr)))
      (tf2.mkVector3 (vx (translation tr)) (vy (translation tr))
                     (vz (translation tr))) in
  let v_out := tf2.mul t (convert (ps_pose t_in)) in
  let q := tf2.getRotationT v_out in
  mkPoseStamped
    (mkHeader 0 (stamp (ts_header transform)) (frame_id (ts_header transform)))
    (mkPose
       (mkPoint (tf2.x (tf2.m_origin v_out)) (tf2.y (tf2.m_origin v_out))
                (tf2.z (tf2.m_origin v_out)))
       (mkQuaternion (tf2.qx q) (tf2.qy q) (tf2.qz q) (tf2.qw q))).

(** The initialiser of [odom.pose.covariance] and of
    [odom.twist.covariance] (lines 135-140 and 177-182). *)
Definition covariance : list T :=
  [ s_5e_3; 0; 0; 0; 0; 0;
    0; s_5e_3; 0; 0; 0; 0;
    0; 0; s_5e_3; 0; 0; 0;
    0; 0; 0; s_5e_3; 0; 0;
    0; 0; 0; 0; s_5e_3; 0;
    0; 0; 0; 0; 0; s_5e_3 ].

(** The condition of the [if] of lines 144-147. *)
Definition all_zero (q : Quaternion T) : bool :=
  (ox q == 0) && (oy q == 0) && (oz q == 0) && (ow q == 0).

(** Lines 143-148, "handle uninitialized data". *)
Definition handle_uninitialized : M unit :=
  st <- this ;;
  if all_zero (orientation (ps_pose (last_pose st)))
  then store_last_orientation_w 1
  else ret tt.

(** Lines 109-115: the pose after [doTransform], the stamp and the sign
    flip of [position.x]. *)
Definition reproject (unprocessed_pose : PoseStamped T)
    (transform_stamped : TransformStamped T) (stamp_now : Time) : PoseStamped T :=
  let relative_pose := doTransform unprocessed_pose transform_stamped in
  let h := ps_header relative_pose in
  let p := ps_pose relative_pose in
  mkPoseStamped
    (mkHeader (seq h) stamp_now (frame_id h))
    (mkPose
       (mkPoint (px (position p) * s_of_Z (-1)) (py (position p)) (pz (position p)))
       (orientation p)).

(** Lines 118-125: the transform handed to the broadcaster. *)
Definition broadcast_of (st : FiducialOdom) (relative_pose : PoseStamped T)
    (stamp_now : Time) : TransformStamped T :=
  let p := ps_pose relative_pose in
  mkTransformStamped
    (mkHeader 0 stamp_now (bin_frame st))
    (footprint_frame st)
    (mkTransform
       (mkVector3 (px (position p)) (py (position p)) (pz (position p)))
       (orientation p)).

(** Lines 152-175: the twist from the stored pose and the new one. *)
Definition twist_between (last relative_pose : PoseStamped T) : Twist T :=
  let t_0 := convert (ps_pose last) in
  let t_1 := convert (ps_pose relative_pose) in
  let deltas := tf2.inverseTimes t_0 t_1 in
  let linear_deltas := tf2.m_origin deltas in
  let angular_deltas := tf2.getRotationT deltas in
  let converter := tf2.setRotation angular_deltas in
  let rpy_deltas := tf2.getRPY converter in
  let delta_t :=
    toSec (stamp (ps_header relative_pose)) - toSec (stamp (ps_header last)) in
  mkTwist (toMsg (tf2.vdiv linear_deltas delta_t))
          (toMsg (tf2.vdiv rpy_deltas delta_t)).

(** Lines 129-140 and 174-182: the odometry message. *)
Definition odometry_of (st : FiducialOdom) (relative_pose : PoseStamped T)
    (stamp_now : Time) (tw : Twist T) : Odometry T :=
  mkOdometry
    (mkHeader 0 stamp_now (bin_frame st))
    (footprint_frame st)
    (mkPoseWithCovariance (ps_pose relative_pose) covariance)
    (mkTwistWithCovariance tw covariance).

(** [FiducialOdom::process_odometry] *)
Definition process_odometry (c : Cycle) : M unit :=
  emit SendGoal ;;
  if waitForResult c then
    let result := getResult c in
    (if (number_found result =? 0)%Z then return_ else ret tt) ;;
    let unprocessed_pose := relative_pose result in
    st <- this ;;
    emit (LookupTransform (camera_frame st) (footprint_frame st) Time0) ;;
    transform_stamped <-
      match lookupTransform c with
      | inr ts => ret ts
      | inl what => emit (RosWarn what) ;; emit (Sleep 1) ;; return_
      end ;;
    let relative_pose := reproject unprocessed_pose transform_stamped (now c 0) in
    emit (SendTransform (broadcast_of st relative_pose (now c 1))) ;;
    handle_uninitialized ;;
    st' <- this ;;
    let tw := twist_between (last_pose st') relative_pose in
    emit (Publish (odometry_of st relative_pose (now c 2) tw)) ;;
    store_last_pose relative_pose
  else
    emit (RosWarn "Fiducial action server failed.").

(** One run of the callback: the members afterwards and the actions. *)
Definition run (c : Cycle) (st : FiducialOdom) : FiducialOdom * list Action :=
  let '(_, st', tr) := process_odometry c st in (st', tr).

(** The odometry messages among the actions. *)
Fixpoint published (tr : list Action) : list (Odometry T) :=
  match tr with
  | [] => []
  | Publish o :: tr' => o :: published tr'
  | _ :: tr' => published tr'
  end.

(** The warnings among the actions. *)
Fixpoint warnings (tr : list Action) : list string :=
  match tr with
  | [] => []
  | RosWarn m :: tr' => m :: warnings tr'
  | _ :: tr' => warnings tr'
  end.

(** The stores to [last_pose] among the actions. *)
Fixpoint stores (tr : list Action) : list Action :=
  match tr with
  | [] => []
  | StoreLastOrientationW w :: tr' => StoreLastOrientationW w :: stores tr'
  | StoreLastPose p :: tr' => StoreLastPose p :: stores tr'
  | _ :: tr' => stores tr'
  end.

(** What a store does to the members; the other actions leave them alone. *)
Definition apply_store (st : FiducialOdom) (a : Action) : FiducialOdom :=
  match a with
  | StoreLastOrientationW w =>
      with_last_pose st (set_orientation_w (last_pose st) w)
  | StoreLastPose p => with_last_pose st p
  | _ => st
  end.

(** The members after a sequence of actions. *)
Definition replay (tr : list Action) (st : FiducialOdom) : FiducialOdom :=
  fold_left apply_store tr st.

(** Lines 143-148 as a function of the stored pose: what the velocity
    computation reads after the in-place fix. *)
Definition normalized (p : PoseStamped T) : PoseStamped T :=
  if all_zero (orientation (ps_pose p)) then set_orientation_w p 1 else p.

(** Lines 143-175 as a function of the stored pose and the new pose. *)
Definition estimate (previous current : PoseStamped T) : Twist T :=
  twist_between (normalized previous) current.

(** The identity pose at the origin. *)
Definition identity_pose : Pose T :=
  mkPose (mkPoint 0 0 0) (mkQuaternion 0 0 0 1).

(** The actions of an accepted cycle, in program order. *)
Definition accepted_actions (st : FiducialOdom) (rp : PoseStamped T)
    (c : Cycle) : list Action :=
  [SendGoal;
   LookupTransform (camera_frame st) (footprint_frame st) Time0;
   SendTransform (broadcast_of st rp (now c 1))]
  ++ (if all_zero (orientation (ps_pose (last_pose st)))
      then [StoreLastOrientationW 1] else [])
  ++ [Publish (odometry_of st rp (now c 2) (estimate (last_pose st) rp));
      StoreLastPose rp].




(** Whether the callback runs to its last line: the action client has a
    result, at least one marker was found and the lookup did not throw. *)
Definition accepted (c : Cycle) : bool :=
  waitForResult c
  && negb (number_found (getResult c) =? 0)%Z
  && match lookupTransform c with inr _ => true | inl _ => false end.

(** The pose an accepted cycle computes at lines 109-115. *)
Definition reprojected (c : Cycle) : option (PoseStamped T) :=
  match lookupTransform c with
  | inr ts =>
      if accepted c
      then Some (reproject (relative_pose (getResult c)) ts (now c 0))
      else None
  | inl _ => None
  end.

(** [ros::spin()] in [main]: the node is single-threaded, so the image
    callbacks run one after the other, each on the members the previous one
    left. *)
Fixpoint spin (cs : list Cycle) (st : FiducialOdom) : FiducialOdom * list Action :=
  match cs with
  | [] => (st, [])
  | c :: cs' =>
      let (st1, tr1) := run c st in
      let (st2, tr2) := spin cs' st1 in
      (st2, tr1 ++ tr2)
  end.

(** The transforms handed to the broadcaster among the actions. *)
Fixpoint broadcasts (tr : list Action) : list (TransformStamped T) :=
  match tr with
  | [] => []
  | SendTransform tf :: tr' => tf :: broadcasts tr'
  | _ :: tr' => broadcasts tr'
  end.

(** The goals sent among the actions. *)
Fixpoint goals (tr : list Action) : nat :=
  match tr with
  | [] => 0
  | SendGoal :: tr' => S (goals tr')
  | _ :: tr' => goals tr'
  end.

(** The sleeps among the actions. *)
Fixpoint sleeps (tr : list Action) : list T :=
  match tr with
  | [] => []
  | Sleep d :: tr' => d :: sleeps tr'
  | _ :: tr' => sleeps tr'
  end.

(** [ros::param::param<std::string>(name, val, default)] on a parameter
    server holding strings: the value stored under the name, or the default
    when there is none. *)
Definition param (server : string -> option string) (name default : string) : string :=
  match server name with
  | Some v => v
  | None => default
  end.

(** The node that [main] constructs (lines 213-219): the four parameters
    with their defaults, passed to the constructor in this order. *)
Definition main_node (server : string -> option string) : FiducialOdom :=
  init (param server "~camera_frame" "camera_link")
       (param server "~footprint_frame" "footprint")
       (param server "~bin_frame" "bin_link")
       (param server "~odometry_frame" "odom").

End Node.
Arguments FiducialOdom : clear implicits.
Arguments Action : clear implicits.
Arguments Cycle : clear implicits.
Arguments M : clear implicits.
End Odom.

(** ** Exact arithmetic *)

(** The interpretation of the scalars by the real numbers: the arithmetic
    the formulas of tf2 are written for, without rounding. *)
Module Ideal.
Local Open Scope R_scope.

Definition Reqb (a b : R) : bool := if Req_dec_T a b then true else false.
Definition Rltb (a b : R) : bool := if Rlt_dec a b then true else false.
Definition Rleb (a b : R) : bool := if Rle_dec a b then true else false.

(** The angle of the point (x, y), in (-PI, PI]. *)
Definition atan2 (y x : R) : R :=
  if Rlt_dec 0 x then atan (y / x)
  else if Rlt_dec x 0 then
    (if Rle_dec 0 y then atan (y / x) + PI else atan (y / x) - PI)
  else if Rlt_dec 0 y then PI / 2
  else if Rlt_dec y 0 then - PI / 2
  else 0.

#[export] Instance RScalar : Scalar R := {|
  s_of_Z := IZR;
  s_5e_3 := 5 / 1000;
  s_half := 1 / 2;
  s_1e_9 := 1 / 1000000000;
  s_pi := PI;
  s_add := Rplus;
  s_sub := Rminus;
  s_mul := Rmult;
  s_div := Rdiv;
  s_neg := Ropp;
  s_sqrt := sqrt;
  s_fabs := Rabs;
  s_asin := asin;
  s_cos := cos;
  s_atan2 := atan2;
  s_eqb := Reqb;
  s_ltb := Rltb;
  s_leb := Rleb
|}.

Import ros msgs Odom.

(** *** A concrete node and concrete cycles *)

Definition frames_node (last : PoseStamped R) : FiducialOdom R :=
  mkFiducialOdom last "camera_link" "footprint" "bin_link" "odom".

(** The node as constructed by [main]. *)
Definition fresh : FiducialOdom R :=
  init "camera_link" "footprint" "bin_link" "odom".

(** A pose at the origin with identity orientation, stamped [t]. *)
Definition pose_at (t : Time) (x y z : R) : PoseStamped R :=
  mkPoseStamped (mkHeader 0 t "camera_link")
    (mkPose (mkPoint x y z) (mkQuaternion 0 0 0 1)).

(** The identity transform from the camera frame. *)
Definition identity_transform : TransformStamped R :=
  mkTransformStamped (mkHeader 0 Time0 "camera_link") "footprint"
    (mkTransform (mkVector3 0 0 0) (mkQuaternion 0 0 0 1)).

(** A cycle in which one marker is found at (1, 2, 3), the lookup succeeds
    and the clock reads 5 s at every call. *)
Definition cycle_ok : Cycle R :=
  mkCycle true (mkArucoResult 1 (pose_at (mkTime 5 0) 1 2 3))
          (inr identity_transform) (fun _ => mkTime 5 0).

(** The same cycle with no marker found. *)
Definition cycle_none : Cycle R :=
  mkCycle true (mkArucoResult 0 (pose_at (mkTime 5 0) 1 2 3))
          (inr identity_transform) (fun _ => mkTime 5 0).

(** The same cycle with a failing lookup. *)
Definition cycle_no_transform : Cycle R :=
  mkCycle true (mkArucoResult 1 (pose_at (mkTime 5 0) 1 2 3))
          (inl "lookup failed"%string) (fun _ => mkTime 5 0).

(** A node whose stored pose was taken at 5 s. *)
Definition node_at_5 : FiducialOdom R :=
  frames_node (pose_at (mkTime 5 0) 0 0 0).

(** A cycle in which the action client has no result. *)
Definition cycle_no_result : Cycle R :=
  mkCycle false (mkArucoResult 1 (pose_at (mkTime 5 0) 1 2 3))
          (inr identity_transform) (fun _ => mkTime 5 0).

(** A cycle like [cycle_ok], two seconds later and one unit further. *)
Definition cycle_later : Cycle R :=
  mkCycle true (mkArucoResult 1 (pose_at (mkTime 7 0) 2 2 3))
          (inr identity_transform) (fun _ => mkTime 7 0).

(** An empty parameter server. *)
Definition no_params : string -> option string := fun _ => None.

(** A parameter server that holds only [~odom_frame], the name used in the
    header comment of the file. *)
Definition odom_frame_param : string -> option string :=
  fun name => if String.eqb name "~odom_frame" then Some "map"%string else None.

(** The node as constructed, with another odometry frame. *)
Definition fresh_other_odom : FiducialOdom R :=
  init "camera_link" "footprint" "bin_link" "map".

End Ideal.

(** ** Double arithmetic *)

(** The interpretation of the scalars by the binary64 floating-point numbers
    of the kernel: the operations are the IEEE 754 operations, rounded to
    nearest even, with infinities, NaN and signed zeros, as [double] has
    them. *)
Module Double.
Import ros msgs Odom.
Import PrimFloat.
Local Open Scope float_scope.

(** The conversion of a positive integer; exact below 2^53, which covers
    [uint32_t] and the integer literals of the code. *)
Fixpoint of_pos (p : positive) : float :=
  match p with
  | xH => 1
  | xO p' => 2 * of_pos p'
  | xI p' => 2 * of_pos p' + 1
  end.

Definition of_Z (z : Z) : float :=
  match z with
  | Z0 => 0
  | Zpos p => of_pos p
  | Zneg p => - of_pos p
  end.

(** The three functions of libm that [getRPY] calls. *)
Record Libm : Type := mkLibm {
  m_asin : float -> float;
  m_cos : float -> float;
  m_atan2 : float -> float -> float
}.

(** [TF2SIMD_PI], the double nearest to 3.14159265358979323846. *)
Definition pi : float := 0x1.921fb54442d18p+1.

(** The functions of libm at the arguments where Annex F of the C standard
    fixes their value exactly: [asin(+-0) = +-0], [cos(+-0) = 1],
    [atan2(+-0, x) = +-0] for [x > 0] and [+-pi] for [x < 0],
    [atan2(y, +-0) = pi/2] for [y > 0] and [-pi/2] for [y < 0].  They are not
    computable in the kernel at the other arguments, where NaN stands for a
    value that is not determined here; nothing below relies on it. *)
Definition annex_f : Libm :=
  mkLibm
    (fun x => if x =? 0 then x else nan)
    (fun x => if x =? 0 then 1 else nan)
    (fun y x =>
       if y =? 0 then
         (if 0 <? x then y
          else if x <? 0 then (if 1 / y <? 0 then - pi else pi)
          else nan)
       else if x =? 0 then
         (if 0 <? y then pi / 2 else if y <? 0 then - (pi / 2) else nan)
       else nan).

(** The literals are the doubles nearest to 5e-3, 0.5 and 1e-9. *)
Definition DoubleScalar (libm : Libm) : Scalar float := {|
  s_of_Z := of_Z;
  s_5e_3 := 0x1.47ae147ae147bp-8;
  s_half := 0.5;
  s_1e_9 := 0x1.12e0be826d695p-30;
  s_pi := pi;
  s_add := add;
  s_sub := sub;
  s_mul := mul;
  s_div := div;
  s_neg := opp;
  s_sqrt := sqrt;
  s_fabs := abs;
  s_asin := m_asin libm;
  s_cos := m_cos libm;
  s_atan2 := m_atan2 libm;
  s_eqb := eqb;
  s_ltb := ltb;
  s_leb := leb
|}.

#[export] Instance binary64 : Scalar float := DoubleScalar annex_f.

(** *** Concrete poses, nodes and cycles *)

(** A pose stamped [t] at (x, y, z) with orientation (qx, qy, qz, qw). *)
Definition pose (t : Time) (x y z qx qy qz qw : float) : PoseStamped float :=
  mkPoseStamped (mkHeader 0 t "camera_link")
    (mkPose (mkPoint x y z) (mkQuaternion qx qy qz qw)).

(** The identity transform from the camera frame. *)
Definition identity_transform : TransformStamped float :=
  mkTransformStamped (mkHeader 0 Time0 "camera_link") "footprint"
    (mkTransform (mkVector3 0 0 0) (mkQuaternion 0 0 0 1)).

(** A cycle in which one marker is found with the pose [marker], the lookup
    gives the identity transform and the clock reads [t] at every call. *)
Definition cycle (t : Time) (marker : PoseStamped float) : Cycle float :=
  mkCycle true (mkArucoResult 1 marker) (inr identity_transform) (fun _ => t).

(** A node with the default frames and the stored pose [last]. *)
Definition node (last : PoseStamped float) : FiducialOdom float :=
  mkFiducialOdom last "camera_link" "footprint" "bin_link" "odom".

(** The node as constructed by [main]. *)
Definition fresh : FiducialOdom float :=
  init "camera_link" "footprint" "bin_link" "odom".

(** A marker seen at (-3, 4, 0) with identity orientation; the callback
    stores it at (3, 4, 0). *)
Definition marker_345 : PoseStamped float :=
  pose (mkTime 1 0) (-3) 4 0 0 0 0 1.






Definition origin_5 : PoseStamped float := pose (mkTime 5 0) 0 0 0 0 0 0 1.
Definition origin_8 : PoseStamped float := pose (mkTime 8 0) 0 0 0 0 0 0 1.

(** The pose that the callback computes from [marker_345] when the clock
    reads 5 s. *)
Definition moved_5 : PoseStamped float := pose (mkTime 5 0) 3 4 0 0 0 0 1.


(** The twists of the messages among the actions. *)
Definition twists (tr : list (Action float)) : list (Twist float) :=
  map (fun o => tc_twist (od_twist o)) (published tr).

End Double.

(** * Facts about one run of the callback *)

Import ros msgs Odom.

Section CycleFacts.
Context {T : Type} `{Scalar T}.
Variable doTransform : PoseStamped T -> TransformStamped T -> PoseStamped T.
Local Open Scope scalar_scope.


(** No result from the action client: one warning, nothing else. *)
Lemma run_no_result (c : Cycle T) (st : FiducialOdom T) :
  waitForResult c = false ->
  run doTransform c st = (st, [SendGoal; RosWarn "Fiducial action server failed."]).
Proof.
  intros Hw. unfold run, process_odometry, bind, emit.
  rewrite Hw. reflexivity.
Qed.

(** No marker found: the callback returns right after reading the result. *)
Lemma run_no_marker (c : Cycle T) (st : FiducialOdom T) :
  waitForResult c = true ->
  number_found (getResult c) = 0%Z ->
  run doTransform c st = (st, [SendGoal]).
Proof.
  intros Hw Hn. unfold run, process_odometry, bind, emit.
  rewrite Hw, Hn. reflexivity.
Qed.

(** The lookup throws: the warning, the sleep, and the return of the
    [catch] block. *)
Lemma run_lookup_failed (c : Cycle T) (st : FiducialOdom T) (what : string) :
  waitForResult c = true ->
  number_found (getResult c) <> 0%Z ->
  lookupTransform c = inl what ->
  run doTransform c st =
    (st, [SendGoal;
          LookupTransform (camera_frame st) (footprint_frame st) Time0;
          RosWarn what; Sleep 1]).
Proof.
  intros Hw Hn Hl. apply Z.eqb_neq in Hn.
  unfold run, process_odometry, bind, emit, this, return_, ret.
  rewrite Hw, Hn, Hl. reflexivity.
Qed.

(** The accepted cycle: the whole run, as a function of the members and of
    the answers of the collaborators. *)
Lemma run_accepted (c : Cycle T) (st : FiducialOdom T) (ts : TransformStamped T) :
  waitForResult c = true ->
  number_found (getResult c) <> 0%Z ->
  lookupTransform c = inr ts ->
  let rp := reproject doTransform (relative_pose (getResult c)) ts (now c 0) in
  run doTransform c st = (with_last_pose st rp, accepted_actions st rp c).
Proof.
  intros Hw Hn Hl rp. apply Z.eqb_neq in Hn.
  unfold run, process_odometry, handle_uninitialized, accepted_actions,
    estimate, normalized, bind, emit, this, return_, ret,
    store_last_orientation_w, store_last_pose.
  rewrite Hw, Hn, Hl. fold rp.
  destruct (all_zero (orientation (ps_pose (last_pose st)))); reflexivity.
Qed.

(** The four ways a run can go. *)
Lemma run_cases (c : Cycle T) (st : FiducialOdom T) :
  (waitForResult c = false) \/
  (waitForResult c = true /\ number_found (getResult c) = 0%Z) \/
  (waitForResult c = true /\ number_found (getResult c) <> 0%Z /\
   exists what, lookupTransform c = inl what) \/
  (waitForResult c = true /\ number_found (getResult c) <> 0%Z /\
   exists ts, lookupTransform c = inr ts).
Proof.
  destruct (waitForResult c); [right | now left].
  destruct (Z.eq_dec (number_found (getResult c)) 0) as [Hn | Hn]; [now left | right].
  destruct (lookupTransform c) as [what | ts]; [left | right]; eauto.
Qed.

Lemma published_accepted (c : Cycle T) (st : FiducialOdom T) (rp : PoseStamped T) :
  published (accepted_actions st rp c) =
    [odometry_of st rp (now c 2) (estimate (last_pose st) rp)].
Proof.
  unfold accepted_actions.
  destruct (all_zero (orientation (ps_pose (last_pose st)))); reflexivity.
Qed.

Lemma stores_accepted (c : Cycle T) (st : FiducialOdom T) (rp : PoseStamped T) :
  stores (accepted_actions st rp c) =
    (if all_zero (orientation (ps_pose (last_pose st)))
     then [StoreLastOrientationW 1] else []) ++ [StoreLastPose rp].
Proof.
  unfold accepted_actions.
  destruct (all_zero (orientation (ps_pose (last_pose st)))); reflexivity.
Qed.

(** The members after a run are the members before it with the stores of
    the run applied in order: nothing else writes to them. *)
Lemma run_replay (c : Cycle T) (st : FiducialOdom T) :
  fst (run doTransform c st) = replay (stores (snd (run doTransform c st))) st.
Proof.
  destruct (run_cases c st) as [Hw | [[Hw Hn] | [[Hw [Hn [what Hl]]] | [Hw [Hn [ts Hl]]]]]].
  - rewrite (run_no_result c st Hw). reflexivity.
  - rewrite (run_no_marker c st Hw Hn). reflexivity.
  - rewrite (run_lookup_failed c st Hw Hn Hl). reflexivity.
  - rewrite (run_accepted c st Hw Hn Hl). cbn [fst snd].
    rewrite stores_accepted.
    destruct (all_zero (orientation (ps_pose (last_pose st)))); reflexivity.
Qed.

(** The stored pose after lines 143-148 is [normalized] of the stored pose
    before them. *)
Lemma handle_uninitialized_spec (st : FiducialOdom T) :
  handle_uninitialized st =
    (Next tt, with_last_pose st (normalized (last_pose st)),
     if all_zero (orientation (ps_pose (last_pose st)))
     then [StoreLastOrientationW 1] else []).
Proof.
  unfold handle_uninitialized, normalized, bind, this, store_last_orientation_w, ret.
  destruct (all_zero (orientation (ps_pose (last_pose st)))); [reflexivity |].
  destruct st; reflexivity.
Qed.

End CycleFacts.

(** * The cycle outcomes *)

Section Outcomes.
Context {T : Type} `{Scalar T}.
Variable doTransform : PoseStamped T -> TransformStamped T -> PoseStamped T.
Local Open Scope scalar_scope.


Lemma header_normalized (p : PoseStamped T) :
  ps_header (normalized p) = ps_header p.
Proof.
  unfold normalized. destruct (all_zero (orientation (ps_pose p))); reflexivity.
Qed.

Lemma position_normalized (p : PoseStamped T) :
  position (ps_pose (normalized p)) = position (ps_pose p).
Proof.
  unfold normalized. destruct (all_zero (orientation (ps_pose p))); reflexivity.
Qed.

(** C7.  When the action client reports zero markers, the run consists of
    sending the goal and nothing else: the node members, with the stored
    previous pose among them, are as before, nothing is published or
    broadcast, no transform is looked up, and nothing is attempted a second
    time. *)
Theorem no_marker_cycle_is_skipped (c : Cycle T) (st : FiducialOdom T) :
  waitForResult c = true ->
  number_found (getResult c) = 0%Z ->
  fst (run doTransform c st) = st /\
  snd (run doTransform c st) = [SendGoal] /\
  published (snd (run doTransform c st)) = [] /\
  (forall a b t, ~ In (LookupTransform a b t) (snd (run doTransform c st))).
Proof.
  intros Hw Hn. rewrite (run_no_marker doTransform c st Hw Hn). cbn.
  repeat split; [].
  intros a b t [Hin | []]. discriminate Hin.
Qed.

(** C8.  When at least one marker is found and the transform lookup throws,
    the run is: send the goal, look the transform up, log one warning with
    the text of the exception, sleep for 1 second; nothing is published or
    broadcast and the node members are as before, so that any later cycle
    runs exactly as if this one had not happened. *)
Theorem lookup_failure_cycle_is_skipped
    (c : Cycle T) (st : FiducialOdom T) (what : string) :
  waitForResult c = true ->
  number_found (getResult c) <> 0%Z ->
  lookupTransform c = inl what ->
  fst (run doTransform c st) = st /\
  snd (run doTransform c st) =
    [SendGoal; LookupTransform (camera_frame st) (footprint_frame st) Time0;
     RosWarn what; Sleep 1] /\
  warnings (snd (run doTransform c st)) = [what] /\
  published (snd (run doTransform c st)) = [] /\
  (forall c', run doTransform c' (fst (run doTransform c st)) = run doTransform c' st).
Proof.
  intros Hw Hn Hl. rewrite (run_lookup_failed doTransform c st Hw Hn Hl). cbn.
  repeat split.
Qed.

(** C4, as the code has it.  The node members change only through the
    stores of a run.  A run either leaves the members alone (no store to
    [last_pose], nothing published), or it is an accepted cycle: it
    publishes one message and its stores to [last_pose] are, in order, the
    in-place store [orientation.w = 1] when and only when the stored
    orientation is all-zero, and then one wholesale assignment of the new
    pose, which is the pose of the published message. *)
Theorem stores_to_last_pose (c : Cycle T) (st : FiducialOdom T) :
  fst (run doTransform c st) = replay (stores (snd (run doTransform c st))) st /\
  ((fst (run doTransform c st) = st /\
   stores (snd (run doTransform c st)) = [] /\
   published (snd (run doTransform c st)) = []) \/
  (exists (rp : PoseStamped T) (o : Odometry T),
     published (snd (run doTransform c st)) = [o] /\
     pc_pose (od_pose o) = ps_pose rp /\
     stores (snd (run doTransform c st)) =
       (if all_zero (orientation (ps_pose (last_pose st)))
        then [StoreLastOrientationW 1] else []) ++ [StoreLastPose rp] /\
     last_pose (fst (run doTransform c st)) = rp)).
Proof.
  split; [apply run_replay |].
  destruct (run_cases c st) as [Hw | [[Hw Hn] | [[Hw [Hn [what Hl]]] | [Hw [Hn [ts Hl]]]]]].
  - left. rewrite (run_no_result doTransform c st Hw). repeat split.
  - left. rewrite (run_no_marker doTransform c st Hw Hn). repeat split.
  - left. rewrite (run_lookup_failed doTransform c st Hw Hn Hl). repeat split.
  - right. rewrite (run_accepted doTransform c st Hw Hn Hl). cbn [fst snd].
    rewrite published_accepted, stores_accepted.
    eexists _, _. repeat split.
Qed.

End Outcomes.

(** * Statements that use identities of the arithmetic *)

Section WithLaws.
Context {T : Type} `{ScalarLaws T}.
Variable doTransform : PoseStamped T -> TransformStamped T -> PoseStamped T.
Local Open Scope scalar_scope.

Lemma all_zero_normalized (p : PoseStamped T) :
  all_zero (orientation (ps_pose (normalized p))) = false.
Proof.
  unfold normalized.
  destruct (all_zero (orientation (ps_pose p))) eqn:E; [| exact E].
  unfold all_zero, set_orientation_w. cbn.
  rewrite eqb_1_0. apply andb_false_r.
Qed.

Lemma all_zero_Pose0 : all_zero (orientation (@Pose0 T _)) = true.
Proof. unfold all_zero. cbn. rewrite eqb_0_0. reflexivity. Qed.

(** C2.  In an accepted cycle the pose that is published, broadcast and
    stored is the pose returned by [doTransform] on the marker pose and the
    looked-up transform with the X component of its position negated; the Y
    and Z components and the orientation are those of the transformed pose.
    There is no branch around the sign flip. *)
Theorem reprojection_negates_x
    (c : Cycle T) (st : FiducialOdom T) (ts : TransformStamped T) :
  waitForResult c = true ->
  number_found (getResult c) <> 0%Z ->
  lookupTransform c = inr ts ->
  let transformed := ps_pose (doTransform (relative_pose (getResult c)) ts) in
  let rp := reproject doTransform (relative_pose (getResult c)) ts (now c 0) in
  (px (position (ps_pose rp)) = - px (position transformed) /\
   py (position (ps_pose rp)) = py (position transformed) /\
   pz (position (ps_pose rp)) = pz (position transformed) /\
   orientation (ps_pose rp) = orientation transformed) /\
  (exists o : Odometry T,
     published (snd (run doTransform c st)) = [o] /\
     pc_pose (od_pose o) = ps_pose rp) /\
  In (SendTransform (broadcast_of st rp (now c 1))) (snd (run doTransform c st)) /\
  last_pose (fst (run doTransform c st)) = rp.
Proof.
  intros Hw Hn Hl transformed rp.
  rewrite (run_accepted doTransform c st Hw Hn Hl). fold rp. cbn [fst snd].
  rewrite published_accepted.
  split; [| split; [| split]].
  - cbn. rewrite mul_minus_1. repeat split.
  - eexists. split; reflexivity.
  - unfold accepted_actions. cbn. tauto.
  - reflexivity.
Qed.

(** C5.  For a node as constructed, the stored pose as the velocity
    computation reads it (after lines 143-148) has zero position and
    orientation (0, 0, 0, 1).  For every node, that pose is the stored pose
    left in [last_pose] by lines 143-148, its orientation is not all-zero, it
    is the stored orientation with [w] set to 1 when the stored orientation
    is all-zero and the stored orientation itself otherwise, and it is the
    pose from which the twist of every published message is computed. *)
Theorem previous_pose_is_never_all_zero
    (c : Cycle T) (st : FiducialOdom T) (c_frame f_frame b_frame o_frame : string) :
  ps_pose (normalized (last_pose (init c_frame f_frame b_frame o_frame)))
    = identity_pose /\
  last_pose (snd (fst (handle_uninitialized st))) = normalized (last_pose st) /\
  all_zero (orientation (ps_pose (normalized (last_pose st)))) = false /\
  (all_zero (orientation (ps_pose (last_pose st))) = true ->
   let q := orientation (ps_pose (last_pose st)) in
   orientation (ps_pose (normalized (last_pose st)))
     = mkQuaternion (ox q) (oy q) (oz q) 1 /\
   (ox q == 0) = true /\ (oy q == 0) = true /\ (oz q == 0) = true) /\
  (all_zero (orientation (ps_pose (last_pose st))) = false ->
   normalized (last_pose st) = last_pose st) /\
  (forall o, In o (published (snd (run doTransform c st))) ->
     exists rp, tc_twist (od_twist o) = twist_between (normalized (last_pose st)) rp).
Proof.
  split; [| split; [| split; [| split; [| split]]]].
  - unfold init, normalized. cbn [last_pose].
    unfold PoseStamped0. cbn [ps_pose]. rewrite all_zero_Pose0. reflexivity.
  - rewrite handle_uninitialized_spec. reflexivity.
  - apply all_zero_normalized.
  - intros E q. unfold normalized. rewrite E. split; [reflexivity |].
    unfold all_zero in E. fold q in E.
    apply andb_true_iff in E. destruct E as [E _].
    apply andb_true_iff in E. destruct E as [E Ez].
    apply andb_true_iff in E. destruct E as [Ex Ey]. auto.
  - intros E. unfold normalized. rewrite E. reflexivity.
  - intros o Hin.
    destruct (run_cases c st) as [Hw | [[Hw Hn] | [[Hw [Hn [what Hl]]] | [Hw [Hn [ts Hl]]]]]].
    + rewrite (run_no_result doTransform c st Hw) in Hin. destruct Hin.
    + rewrite (run_no_marker doTransform c st Hw Hn) in Hin. destruct Hin.
    + rewrite (run_lookup_failed doTransform c st Hw Hn Hl) in Hin. destruct Hin.
    + rewrite (run_accepted doTransform c st Hw Hn Hl) in Hin. cbn [fst snd] in Hin.
      rewrite published_accepted in Hin. destruct Hin as [<- | []].
      eexists. reflexivity.
Qed.

Lemma covariance_entries (i j : nat) :
  (i < 6)%nat -> (j < 6)%nat ->
  nth (6 * i + j) (@covariance T _) 0 = if (i =? j)%nat then s_5e_3 else 0.
Proof.
  intros Hi Hj.
  do 6 (destruct i as [| i];
        [do 6 (destruct j as [| j]; [reflexivity |]); lia |]).
  lia.
Qed.

Lemma length_filter_cons (f : T -> bool) (e : T) (l : list T) :
  List.length (filter f (e :: l)) =
    ((if f e then 1 else 0) + List.length (filter f l))%nat.
Proof. simpl. destruct (f e); reflexivity. Qed.

Lemma covariance_nonzero_count :
  List.length (filter (fun e : T => negb (e == 0)) covariance) = 6%nat.
Proof.
  unfold covariance.
  rewrite !length_filter_cons, eqb_0_0, eqb_5e_3_0. reflexivity.
Qed.

(** C6.  Every published odometry message carries the same array as pose
    covariance and as twist covariance.  The array has 36 entries, the entry
    of row i and column j is the literal 5e-3 when i = j and the literal 0
    otherwise, and exactly six of its entries are not equal to zero.  The
    array is a constant: it does not depend on the node or on the cycle. *)
Theorem covariances_are_fixed_diagonal
    (c : Cycle T) (st : FiducialOdom T) (o : Odometry T) :
  In o (published (snd (run doTransform c st))) ->
  pc_covariance (od_pose o) = covariance /\
  tc_covariance (od_twist o) = covariance /\
  List.length (@covariance T _) = 36%nat /\
  (forall i j : nat, (i < 6)%nat -> (j < 6)%nat ->
     nth (6 * i + j) (@covariance T _) 0 = if (i =? j)%nat then s_5e_3 else 0) /\
  List.length (filter (fun e : T => negb (e == 0)) covariance) = 6%nat.
Proof.
  intros Hin.
  assert (Ho : pc_covariance (od_pose o) = covariance /\
               tc_covariance (od_twist o) = covariance).
  { destruct (run_cases c st) as [Hw | [[Hw Hn] | [[Hw [Hn [what Hl]]] | [Hw [Hn [ts Hl]]]]]].
    - rewrite (run_no_result doTransform c st Hw) in Hin. destruct Hin.
    - rewrite (run_no_marker doTransform c st Hw Hn) in Hin. destruct Hin.
    - rewrite (run_lookup_failed doTransform c st Hw Hn Hl) in Hin. destruct Hin.
    - rewrite (run_accepted doTransform c st Hw Hn Hl) in Hin. cbn [fst snd] in Hin.
      rewrite published_accepted in Hin. destruct Hin as [<- | []].
      split; reflexivity. }
  destruct Ho as [Hp Ht].
  split; [exact Hp |]. split; [exact Ht |]. split; [reflexivity |].
  split; [exact covariance_entries | exact covariance_nonzero_count].
Qed.

End WithLaws.

(** * The identities of the arithmetic hold for the real numbers *)

Section IdealFacts.
Import Ideal.
Local Open Scope R_scope.

Lemma Reqb_true (a b : R) : a = b -> Reqb a b = true.
Proof. intros E. unfold Reqb. destruct (Req_dec_T a b); [reflexivity | contradiction]. Qed.

Lemma Reqb_false (a b : R) : a <> b -> Reqb a b = false.
Proof. intros E. unfold Reqb. destruct (Req_dec_T a b); [contradiction | reflexivity]. Qed.

#[export] Instance RLaws : ScalarLaws (T := R).
Proof.
  constructor; cbn.
  - apply Reqb_true. reflexivity.
  - apply Reqb_false. lra.
  - apply Reqb_false. lra.
  - intros x. ring.
  - lra.
  - lra.
  - intros x. ring.
Qed.

End IdealFacts.

(** * Closed examples in exact arithmetic *)

Section Examples.
Import Ideal.
Local Open Scope R_scope.

Lemma cycle_ok_accepted :
  waitForResult cycle_ok = true /\
  number_found (getResult cycle_ok) <> 0%Z /\
  lookupTransform cycle_ok = inr identity_transform.
Proof. repeat split. discriminate. Defined.

Lemma reprojection_negates_x_witness :
  (waitForResult cycle_ok = true /\
   number_found (getResult cycle_ok) <> 0%Z /\
   lookupTransform cycle_ok = inr identity_transform) /\
  last_pose (fst (run doTransform_tf2 cycle_ok node_at_5)) =
    reproject doTransform_tf2 (relative_pose (getResult cycle_ok))
              identity_transform (now cycle_ok 0).
Proof.
  split; [exact cycle_ok_accepted |].
  apply (reprojection_negates_x doTransform_tf2 cycle_ok node_at_5
           (proj1 cycle_ok_accepted) (proj1 (proj2 cycle_ok_accepted))
           (proj2 (proj2 cycle_ok_accepted))).
Defined.

(** C4, counterexample.  On the first accepted cycle of a node as
    constructed, the callback stores 1 into the field [orientation.w] of the
    stored pose: the stored pose is changed in place, the rest of it being
    kept, before it is replaced. *)
Lemma uninitialized_fix_stores_in_place :
  In (StoreLastOrientationW 1) (snd (run doTransform_tf2 cycle_ok fresh)) /\
  last_pose (snd (fst (handle_uninitialized fresh))) <> last_pose fresh /\
  ps_header (last_pose (snd (fst (handle_uninitialized fresh))))
    = ps_header (last_pose fresh) /\
  position (ps_pose (last_pose (snd (fst (handle_uninitialized fresh)))))
    = position (ps_pose (last_pose fresh)).
Proof.
  destruct cycle_ok_accepted as [Hw [Hn Hl]].
  rewrite (run_accepted doTransform_tf2 cycle_ok fresh Hw Hn Hl). cbn [fst snd].
  assert (Hz : all_zero (orientation (ps_pose (last_pose fresh))) = true)
    by apply all_zero_Pose0.
  rewrite handle_uninitialized_spec. cbn [fst snd last_pose with_last_pose].
  split; [| split; [| split]].
  - unfold accepted_actions. rewrite Hz. cbn. tauto.
  - unfold normalized. rewrite Hz. intros E.
    apply (f_equal (fun p => ow (orientation (ps_pose p)))) in E.
    cbn in E. lra.
  - apply header_normalized.
  - apply position_normalized.
Qed.

Lemma previous_pose_is_never_all_zero_witness :
  ps_pose (normalized (last_pose fresh)) = identity_pose /\
  all_zero (orientation (ps_pose (normalized (last_pose node_at_5)))) = false.
Proof.
  split.
  - apply (previous_pose_is_never_all_zero doTransform_tf2 cycle_ok node_at_5
             "camera_link" "footprint" "bin_link" "odom").
  - apply (previous_pose_is_never_all_zero doTransform_tf2 cycle_ok node_at_5
             "camera_link" "footprint" "bin_link" "odom").
Defined.

Lemma covariances_are_fixed_diagonal_witness :
  let rp := reproject doTransform_tf2 (relative_pose (getResult cycle_ok))
              identity_transform (now cycle_ok 0) in
  let o := odometry_of node_at_5 rp (now cycle_ok 2)
             (estimate (last_pose node_at_5) rp) in
  In o (published (snd (run doTransform_tf2 cycle_ok node_at_5))) /\
  pc_covariance (od_pose o) = covariance /\
  tc_covariance (od_twist o) = covariance.
Proof.
  intros rp o.
  assert (Hin : In o (published (snd (run doTransform_tf2 cycle_ok node_at_5)))).
  { rewrite (run_accepted doTransform_tf2 cycle_ok node_at_5
               (proj1 cycle_ok_accepted) (proj1 (proj2 cycle_ok_accepted))
               (proj2 (proj2 cycle_ok_accepted))).
    cbn [fst snd]. rewrite published_accepted. left. reflexivity. }
  split; [exact Hin |].
  destruct (covariances_are_fixed_diagonal doTransform_tf2 cycle_ok node_at_5 o Hin)
    as (Hp & Ht & _).
  split; assumption.
Defined.

Lemma no_marker_cycle_is_skipped_witness :
  waitForResult cycle_none = true /\
  number_found (getResult cycle_none) = 0%Z /\
  fst (run doTransform_tf2 cycle_none node_at_5) = node_at_5 /\
  snd (run doTransform_tf2 cycle_none node_at_5) = [SendGoal].
Proof.
  split; [reflexivity |]. split; [reflexivity |].
  destruct (no_marker_cycle_is_skipped doTransform_tf2 cycle_none node_at_5
              eq_refl eq_refl) as (Hs & Ht & _).
  split; assumption.
Defined.

Lemma cycle_no_transform_found : number_found (getResult cycle_no_transform) <> 0%Z.
Proof. discriminate. Defined.

Lemma lookup_failure_cycle_is_skipped_witness :
  waitForResult cycle_no_transform = true /\
  number_found (getResult cycle_no_transform) <> 0%Z /\
  lookupTransform cycle_no_transform = inl "lookup failed"%string /\
  fst (run doTransform_tf2 cycle_no_transform node_at_5) = node_at_5 /\
  warnings (snd (run doTransform_tf2 cycle_no_transform node_at_5))
    = ["lookup failed"%string].
Proof.
  split; [reflexivity |]. split; [exact cycle_no_transform_found |].
  split; [reflexivity |].
  destruct (lookup_failure_cycle_is_skipped doTransform_tf2 cycle_no_transform node_at_5
              eq_refl cycle_no_transform_found eq_refl) as (Hs & _ & Hwarn & _).
  split; assumption.
Defined.

End Examples.

(** * Sequences of cycles *)

Section Spin.
Context {T : Type} `{Scalar T}.
Variable doTransform : PoseStamped T -> TransformStamped T -> PoseStamped T.
Local Open Scope scalar_scope.

Lemma accepted_true (c : Cycle T) :
  accepted c = true ->
  exists ts, waitForResult c = true /\ number_found (getResult c) <> 0%Z /\
             lookupTransform c = inr ts.
Proof.
  unfold accepted. intros E.
  apply andb_true_iff in E. destruct E as [E El].
  apply andb_true_iff in E. destruct E as [Ew En].
  apply negb_true_iff, Z.eqb_neq in En.
  destruct (lookupTransform c) as [what | ts]; [discriminate |].
  exists ts. auto.
Qed.

Lemma accepted_intro (c : Cycle T) (ts : TransformStamped T) :
  waitForResult c = true -> number_found (getResult c) <> 0%Z ->
  lookupTransform c = inr ts -> accepted c = true.
Proof.
  intros Hw Hn Hl. unfold accepted. rewrite Hw, Hl.
  apply Z.eqb_neq in Hn. rewrite Hn. reflexivity.
Qed.

Lemma run_of_accepted (c : Cycle T) (st : FiducialOdom T) :
  accepted c = true ->
  exists rp, reprojected doTransform c = Some rp /\
             run doTransform c st = (with_last_pose st rp, accepted_actions st rp c).
Proof.
  intros E. destruct (accepted_true c E) as (ts & Hw & Hn & Hl).
  eexists. split.
  - unfold reprojected. rewrite Hl, E. reflexivity.
  - apply (run_accepted doTransform c st Hw Hn Hl).
Qed.

Lemma run_of_rejected (c : Cycle T) (st : FiducialOdom T) :
  accepted c = false ->
  reprojected doTransform c = None /\
  fst (run doTransform c st) = st /\
  published (snd (run doTransform c st)) = [] /\
  broadcasts (snd (run doTransform c st)) = [] /\
  stores (snd (run doTransform c st)) = [] /\
  goals (snd (run doTransform c st)) = 1%nat.
Proof.
  intros E. split.
  { unfold reprojected. rewrite E. destruct (lookupTransform c); reflexivity. }
  destruct (run_cases c st) as [Hw | [[Hw Hn] | [[Hw [Hn [what Hl]]] | [Hw [Hn [ts Hl]]]]]].
  - rewrite (run_no_result doTransform c st Hw). repeat split.
  - rewrite (run_no_marker doTransform c st Hw Hn). repeat split.
  - rewrite (run_lookup_failed doTransform c st Hw Hn Hl). repeat split.
  - rewrite (accepted_intro c Hw Hn Hl) in E. discriminate.
Qed.

Lemma broadcasts_accepted (c : Cycle T) (st : FiducialOdom T) (rp : PoseStamped T) :
  broadcasts (accepted_actions st rp c) = [broadcast_of st rp (now c 1)].
Proof.
  unfold accepted_actions.
  destruct (all_zero (orientation (ps_pose (last_pose st)))); reflexivity.
Qed.

Lemma goals_accepted (c : Cycle T) (st : FiducialOdom T) (rp : PoseStamped T) :
  goals (accepted_actions st rp c) = 1%nat.
Proof.
  unfold accepted_actions.
  destruct (all_zero (orientation (ps_pose (last_pose st)))); reflexivity.
Qed.

Lemma published_app (a b : list (Action T)) :
  published (a ++ b) = published a ++ published b.
Proof.
  induction a as [| x a IH]; [reflexivity |].
  destruct x; cbn; rewrite ?IH; reflexivity.
Qed.

Lemma broadcasts_app (a b : list (Action T)) :
  broadcasts (a ++ b) = broadcasts a ++ broadcasts b.
Proof.
  induction a as [| x a IH]; [reflexivity |].
  destruct x; cbn; rewrite ?IH; reflexivity.
Qed.

Lemma goals_app (a b : list (Action T)) :
  goals (a ++ b) = (goals a + goals b)%nat.
Proof.
  induction a as [| x a IH]; [reflexivity |].
  destruct x; cbn; rewrite ?IH; reflexivity.
Qed.

(** One step of [spin], with the run of the first cycle named. *)
Lemma spin_cons (c : Cycle T) (cs : list (Cycle T)) (st : FiducialOdom T) :
  spin doTransform (c :: cs) st =
    (fst (spin doTransform cs (fst (run doTransform c st))),
     snd (run doTransform c st) ++ snd (spin doTransform cs (fst (run doTransform c st)))).
Proof.
  cbn [spin]. destruct (run doTransform c st) as [st1 tr1]. cbn [fst snd].
  destruct (spin doTransform cs st1) as [st2 tr2]. reflexivity.
Qed.

Lemma run_frames (c : Cycle T) (st : FiducialOdom T) :
  camera_frame (fst (run doTransform c st)) = camera_frame st /\
  footprint_frame (fst (run doTransform c st)) = footprint_frame st /\
  bin_frame (fst (run doTransform c st)) = bin_frame st /\
  odometry_frame (fst (run doTransform c st)) = odometry_frame st.
Proof.
  destruct (accepted c) eqn:E.
  - destruct (run_of_accepted c st E) as (rp & _ & ->). repeat split.
  - destruct (run_of_rejected c st E) as (_ & -> & _). repeat split.
Qed.

(** X1.  When the action client has no result, the callback sends the goal,
    logs the warning "Fiducial action server failed." and does nothing else:
    the result is not read, no transform is looked up, nothing is broadcast
    or published, there is no sleep, and the members are as before. *)
Theorem no_result_cycle_warns_once (c : Cycle T) (st : FiducialOdom T) :
  waitForResult c = false ->
  fst (run doTransform c st) = st /\
  snd (run doTransform c st) = [SendGoal; RosWarn "Fiducial action server failed."] /\
  (forall c' : Cycle T,
     waitForResult c' = false -> run doTransform c' st = run doTransform c st).
Proof.
  intros Hw. rewrite (run_no_result doTransform c st Hw).
  repeat split. intros c' Hw'. apply (run_no_result doTransform c' st Hw').
Qed.

(** X2.  The four frame names of the node are never written: after any
    sequence of cycles they are the ones the node was constructed with. *)
Theorem spin_keeps_frames (cs : list (Cycle T)) (st : FiducialOdom T) :
  camera_frame (fst (spin doTransform cs st)) = camera_frame st /\
  footprint_frame (fst (spin doTransform cs st)) = footprint_frame st /\
  bin_frame (fst (spin doTransform cs st)) = bin_frame st /\
  odometry_frame (fst (spin doTransform cs st)) = odometry_frame st.
Proof.
  revert st. induction cs as [| c cs IH]; intros st; [repeat split |].
  rewrite spin_cons. cbn [fst].
  destruct (IH (fst (run doTransform c st))) as (Hc & Hf & Hb & Ho).
  destruct (run_frames c st) as (Hc' & Hf' & Hb' & Ho').
  rewrite Hc, Hf, Hb, Ho. auto.
Qed.

(** X3.  Over any sequence of cycles, one goal is sent per cycle, and the
    number of odometry messages published and the number of transforms
    broadcast are both the number of accepted cycles (a result, at least one
    marker, a successful lookup). *)
Theorem spin_publishes_once_per_accepted_cycle
    (cs : list (Cycle T)) (st : FiducialOdom T) :
  goals (snd (spin doTransform cs st)) = List.length cs /\
  List.length (published (snd (spin doTransform cs st)))
    = List.length (filter (@accepted T) cs) /\
  List.length (broadcasts (snd (spin doTransform cs st)))
    = List.length (filter (@accepted T) cs).
Proof.
  revert st. induction cs as [| c cs IH]; intros st; [repeat split |].
  rewrite spin_cons. cbn [snd filter].
  rewrite goals_app, published_app, broadcasts_app, !length_app.
  destruct (IH (fst (run doTransform c st))) as (Hg & Hp & Hb).
  rewrite Hg, Hp, Hb.
  destruct (accepted c) eqn:E.
  - destruct (run_of_accepted c st E) as (rp & _ & Hr). rewrite Hr. cbn [fst snd].
    rewrite goals_accepted, published_accepted, broadcasts_accepted.
    repeat split.
  - destruct (run_of_rejected c st E) as (_ & _ & Hp' & Hb' & _ & Hg').
    rewrite Hp', Hb', Hg'. repeat split.
Qed.

(** X4.  After any sequence of cycles the stored pose is the pose computed
    by the last accepted cycle of the sequence, and the pose stored before
    the sequence when no cycle was accepted: the node remembers exactly one
    pose. *)
Theorem spin_stores_last_accepted_pose (cs : list (Cycle T)) (st : FiducialOdom T) :
  last_pose (fst (spin doTransform cs st)) =
    fold_left
      (fun p c => match reprojected doTransform c with Some rp => rp | None => p end)
      cs (last_pose st).
Proof.
  revert st. induction cs as [| c cs IH]; intros st; [reflexivity |].
  rewrite spin_cons. cbn [fst fold_left]. rewrite IH. f_equal.
  destruct (accepted c) eqn:E.
  - destruct (run_of_accepted c st E) as (rp & -> & ->). reflexivity.
  - destruct (run_of_rejected c st E) as (-> & -> & _). reflexivity.
Qed.

End Spin.

(** * What the messages carry and what the output depends on *)

Section Messages.
Context {T : Type} `{Scalar T}.
Variable doTransform : PoseStamped T -> TransformStamped T -> PoseStamped T.
Local Open Scope scalar_scope.

Lemma warnings_accepted (c : Cycle T) (st : FiducialOdom T) (rp : PoseStamped T) :
  warnings (accepted_actions st rp c) = [] /\ sleeps (accepted_actions st rp c) = [].
Proof.
  unfold accepted_actions.
  destruct (all_zero (orientation (ps_pose (last_pose st)))); split; reflexivity.
Qed.

Lemma reprojected_some (c : Cycle T) (rp : PoseStamped T) (st : FiducialOdom T) :
  reprojected doTransform c = Some rp ->
  run doTransform c st = (with_last_pose st rp, accepted_actions st rp c) /\
  stamp (ps_header rp) = now c 0.
Proof.
  intros E. destruct (accepted c) eqn:Ea.
  - destruct (run_of_accepted doTransform c st Ea) as (rp' & E' & Hr).
    rewrite E in E'. injection E' as <-. split; [exact Hr |].
    unfold reprojected in E. rewrite Ea in E.
    destruct (lookupTransform c); [discriminate |]. injection E as <-. reflexivity.
  - destruct (run_of_rejected doTransform c st Ea) as (E' & _).
    rewrite E in E'. discriminate.
Qed.

(** The trace of a run and the pose it leaves depend on the members only
    through the stored pose and the camera, footprint and bin frames. *)
Lemma run_agree (c : Cycle T) (st1 st2 : FiducialOdom T) :
  last_pose st1 = last_pose st2 ->
  camera_frame st1 = camera_frame st2 ->
  footprint_frame st1 = footprint_frame st2 ->
  bin_frame st1 = bin_frame st2 ->
  snd (run doTransform c st1) = snd (run doTransform c st2) /\
  last_pose (fst (run doTransform c st1)) = last_pose (fst (run doTransform c st2)).
Proof.
  intros Hl Hc Hf Hb.
  destruct (run_cases c st1) as [Hw | [[Hw Hn] | [[Hw [Hn [what Hk]]] | [Hw [Hn [ts Hk]]]]]].
  - rewrite !(run_no_result doTransform c _ Hw). auto.
  - rewrite !(run_no_marker doTransform c _ Hw Hn). auto.
  - rewrite !(run_lookup_failed doTransform c _ Hw Hn Hk). cbn [fst snd].
    rewrite Hc, Hf. auto.
  - rewrite !(run_accepted doTransform c _ Hw Hn Hk). cbn [fst snd].
    split; [| reflexivity].
    unfold accepted_actions, broadcast_of, odometry_of.
    rewrite Hl, Hc, Hf, Hb. reflexivity.
Qed.

Lemma spin_agree (cs : list (Cycle T)) (st1 st2 : FiducialOdom T) :
  last_pose st1 = last_pose st2 ->
  camera_frame st1 = camera_frame st2 ->
  footprint_frame st1 = footprint_frame st2 ->
  bin_frame st1 = bin_frame st2 ->
  snd (spin doTransform cs st1) = snd (spin doTransform cs st2) /\
  last_pose (fst (spin doTransform cs st1)) = last_pose (fst (spin doTransform cs st2)).
Proof.
  revert st1 st2. induction cs as [| c cs IH]; intros st1 st2 Hl Hc Hf Hb; [auto |].
  rewrite !spin_cons. cbn [fst snd].
  destruct (run_agree c st1 st2 Hl Hc Hf Hb) as (Ht & Hl').
  destruct (run_frames doTransform c st1) as (Hc1 & Hf1 & Hb1 & _).
  destruct (run_frames doTransform c st2) as (Hc2 & Hf2 & Hb2 & _).
  destruct (IH (fst (run doTransform c st1)) (fst (run doTransform c st2)))
    as (Ht' & Hl''); try congruence.
  rewrite Ht, Ht'. auto.
Qed.

(** X5.  Every odometry message published during a sequence of cycles names
    the bin frame as its frame and the footprint frame as its child frame,
    and a transform between the same two frames, with the position and the
    orientation of the message's pose, is broadcast in the same sequence. *)
Theorem published_pose_is_broadcast
    (cs : list (Cycle T)) (st : FiducialOdom T) (o : Odometry T) :
  In o (published (snd (spin doTransform cs st))) ->
  frame_id (od_header o) = bin_frame st /\
  od_child_frame_id o = footprint_frame st /\
  exists tf : TransformStamped T,
    In tf (broadcasts (snd (spin doTransform cs st))) /\
    frame_id (ts_header tf) = bin_frame st /\
    ts_child_frame_id tf = footprint_frame st /\
    vx (translation (ts_transform tf)) = px (position (pc_pose (od_pose o))) /\
    vy (translation (ts_transform tf)) = py (position (pc_pose (od_pose o))) /\
    vz (translation (ts_transform tf)) = pz (position (pc_pose (od_pose o))) /\
    rotation (ts_transform tf) = orientation (pc_pose (od_pose o)).
Proof.
  revert st. induction cs as [| c cs IH]; intros st Hin; [destruct Hin |].
  rewrite spin_cons in Hin |- *. cbn [snd] in Hin |- *.
  rewrite published_app in Hin. apply in_app_or in Hin.
  destruct Hin as [Hin | Hin].
  - destruct (accepted c) eqn:E.
    + destruct (run_of_accepted doTransform c st E) as (rp & _ & Hr).
      rewrite Hr in Hin |- *. cbn [fst snd] in Hin |- *.
      rewrite published_accepted in Hin. destruct Hin as [<- | []].
      split; [reflexivity |]. split; [reflexivity |].
      exists (broadcast_of st rp (now c 1)).
      split; [| repeat split].
      rewrite broadcasts_app, broadcasts_accepted. left. reflexivity.
    + destruct (run_of_rejected doTransform c st E) as (_ & _ & Hp & _).
      rewrite Hp in Hin. destruct Hin.
  - destruct (run_frames doTransform c st) as (_ & Hf & Hb & _).
    destruct (IH _ Hin) as (H1 & H2 & tf & Htf & H3 & H4 & H5).
    rewrite Hb in H1, H3. rewrite Hf in H2, H4.
    split; [exact H1 |]. split; [exact H2 |].
    exists tf. split; [| auto].
    rewrite broadcasts_app. apply in_or_app. right. exact Htf.
Qed.

(** X6.  When two accepted cycles follow each other, the message of the
    second does not depend on the pose stored before the first: its twist is
    the estimate between the two poses the cycles computed, and the elapsed
    time in it is the difference, in seconds, of the first clock reading of
    the second cycle and the first clock reading of the first cycle. *)
Theorem second_cycle_uses_first_pose
    (c1 c2 : Cycle T) (st : FiducialOdom T) (rp1 rp2 : PoseStamped T) :
  reprojected doTransform c1 = Some rp1 ->
  reprojected doTransform c2 = Some rp2 ->
  let relative :=
    tf2.inverseTimes (convert (ps_pose (normalized rp1))) (convert (ps_pose rp2)) in
  let rpy := tf2.getRPY (tf2.setRotation (tf2.getRotationT relative)) in
  let dt := toSec (now c2 0) - toSec (now c1 0) in
  published (snd (run doTransform c2 (fst (run doTransform c1 st)))) =
    [odometry_of st rp2 (now c2 2)
       (mkTwist (toMsg (tf2.vdiv (tf2.m_origin relative) dt))
                (toMsg (tf2.vdiv rpy dt)))] /\
  last_pose (fst (run doTransform c2 (fst (run doTransform c1 st)))) = rp2.
Proof.
  intros E1 E2 relative rpy dt.
  destruct (reprojected_some c1 st E1) as (Hr1 & Hs1). rewrite Hr1. cbn [fst].
  destruct (reprojected_some c2 (with_last_pose st rp1) E2) as (Hr2 & Hs2).
  rewrite Hr2. cbn [fst snd]. rewrite published_accepted.
  split; [| reflexivity].
  unfold estimate, twist_between. cbn [last_pose with_last_pose].
  rewrite header_normalized, Hs1, Hs2. reflexivity.
Qed.

(** X7.  The member [odometry_frame] is never read: two nodes that agree on
    the stored pose and on the camera, footprint and bin frames perform the
    same actions on every sequence of cycles and end with the same stored
    pose. *)
Theorem odometry_frame_is_unused
    (cs : list (Cycle T)) (st1 st2 : FiducialOdom T) :
  last_pose st1 = last_pose st2 ->
  camera_frame st1 = camera_frame st2 ->
  footprint_frame st1 = footprint_frame st2 ->
  bin_frame st1 = bin_frame st2 ->
  snd (spin doTransform cs st1) = snd (spin doTransform cs st2) /\
  last_pose (fst (spin doTransform cs st1)) = last_pose (fst (spin doTransform cs st2)).
Proof. apply spin_agree. Qed.

(** X8.  Every run of the callback starts by sending the goal and sends no
    other goal; it publishes at most one message and broadcasts exactly as
    many transforms as it publishes messages; it never both logs a warning
    and publishes; and it sleeps only in a run that logs a warning. *)
Theorem run_shape (c : Cycle T) (st : FiducialOdom T) :
  let tr := snd (run doTransform c st) in
  (exists rest, tr = SendGoal :: rest /\ goals rest = 0%nat) /\
  (List.length (warnings tr) + List.length (published tr) <= 1)%nat /\
  List.length (broadcasts tr) = List.length (published tr) /\
  (List.length (sleeps tr) <= List.length (warnings tr))%nat.
Proof.
  intros tr. subst tr.
  destruct (run_cases c st) as [Hw | [[Hw Hn] | [[Hw [Hn [what Hl]]] | [Hw [Hn [ts Hl]]]]]].
  - rewrite (run_no_result doTransform c st Hw). cbn.
    split; [eexists; split; reflexivity |]. lia.
  - rewrite (run_no_marker doTransform c st Hw Hn). cbn.
    split; [eexists; split; reflexivity |]. lia.
  - rewrite (run_lookup_failed doTransform c st Hw Hn Hl). cbn.
    split; [eexists; split; reflexivity |]. lia.
  - rewrite (run_accepted doTransform c st Hw Hn Hl). cbn [snd].
    rewrite published_accepted, broadcasts_accepted.
    destruct (warnings_accepted c st
                (reproject doTransform (relative_pose (getResult c)) ts (now c 0)))
      as (-> & ->).
    split; [| cbn; lia].
    unfold accepted_actions.
    destruct (all_zero (orientation (ps_pose (last_pose st))));
      eexists; split; reflexivity.
Qed.

(** X9.  [main] reads the parameters [~camera_frame], [~footprint_frame],
    [~bin_frame] and [~odometry_frame].  Two parameter servers that agree on
    the first three give nodes that perform the same actions on every
    sequence of cycles, whatever else they hold; and a server that holds
    none of the four gives the node with the frames [camera_link],
    [footprint], [bin_link] and [odom]. *)
Theorem main_depends_on_three_parameters
    (server1 server2 : string -> option string) (cs : list (Cycle T)) :
  server1 "~camera_frame"%string = server2 "~camera_frame"%string ->
  server1 "~footprint_frame"%string = server2 "~footprint_frame"%string ->
  server1 "~bin_frame"%string = server2 "~bin_frame"%string ->
  snd (spin doTransform cs (main_node server1))
    = snd (spin doTransform cs (main_node server2)) /\
  (server1 "~camera_frame"%string = None ->
   server1 "~footprint_frame"%string = None ->
   server1 "~bin_frame"%string = None ->
   server1 "~odometry_frame"%string = None ->
   main_node server1 = init (T := T) "camera_link" "footprint" "bin_link" "odom").
Proof.
  intros Hc Hf Hb. split.
  - apply spin_agree; unfold main_node, init, param; cbn;
      rewrite ?Hc, ?Hf, ?Hb; reflexivity.
  - intros Nc Nf Nb No. unfold main_node, param.
    rewrite Nc, Nf, Nb, No. reflexivity.
Qed.

End Messages.

(** * More closed examples in exact arithmetic *)

Section MoreExamples.
Import Ideal.
Local Open Scope R_scope.

Lemma cycle_ok_reprojected :
  reprojected doTransform_tf2 cycle_ok =
    Some (reproject doTransform_tf2 (relative_pose (getResult cycle_ok))
                    identity_transform (now cycle_ok 0)).
Proof. reflexivity. Defined.

Lemma cycle_later_reprojected :
  reprojected doTransform_tf2 cycle_later =
    Some (reproject doTransform_tf2 (relative_pose (getResult cycle_later))
                    identity_transform (now cycle_later 0)).
Proof. reflexivity. Defined.

Lemma no_result_cycle_warns_once_witness :
  waitForResult cycle_no_result = false /\
  snd (run doTransform_tf2 cycle_no_result node_at_5)
    = [SendGoal; RosWarn "Fiducial action server failed."].
Proof.
  split; [reflexivity |].
  apply (no_result_cycle_warns_once doTransform_tf2 cycle_no_result node_at_5 eq_refl).
Defined.

Lemma published_pose_is_broadcast_witness :
  let rp := reproject doTransform_tf2 (relative_pose (getResult cycle_ok))
              identity_transform (now cycle_ok 0) in
  let o := odometry_of node_at_5 rp (now cycle_ok 2)
             (estimate (last_pose node_at_5) rp) in
  In o (published (snd (spin doTransform_tf2 [cycle_none; cycle_ok] node_at_5))) /\
  frame_id (od_header o) = "bin_link"%string.
Proof.
  intros rp o.
  assert (Hin : In o (published
                        (snd (spin doTransform_tf2 [cycle_none; cycle_ok] node_at_5)))).
  { rewrite !spin_cons. cbn [snd spin].
    rewrite (run_no_marker doTransform_tf2 cycle_none node_at_5 eq_refl eq_refl).
    cbn [fst snd].
    rewrite (run_accepted doTransform_tf2 cycle_ok node_at_5
               (proj1 cycle_ok_accepted) (proj1 (proj2 cycle_ok_accepted))
               (proj2 (proj2 cycle_ok_accepted))).
    cbn [fst snd]. rewrite app_nil_r. cbn [app published].
    rewrite published_accepted. left. reflexivity. }
  split; [exact Hin |].
  apply (published_pose_is_broadcast doTransform_tf2 [cycle_none; cycle_ok] node_at_5 o Hin).
Defined.

Lemma second_cycle_uses_first_pose_witness :
  (reprojected doTransform_tf2 cycle_ok =
     Some (reproject doTransform_tf2 (relative_pose (getResult cycle_ok))
                     identity_transform (now cycle_ok 0)) /\
   reprojected doTransform_tf2 cycle_later =
     Some (reproject doTransform_tf2 (relative_pose (getResult cycle_later))
                     identity_transform (now cycle_later 0))) /\
  last_pose (fst (run doTransform_tf2 cycle_later
                    (fst (run doTransform_tf2 cycle_ok fresh))))
    = reproject doTransform_tf2 (relative_pose (getResult cycle_later))
                identity_transform (now cycle_later 0).
Proof.
  split; [split; [exact cycle_ok_reprojected | exact cycle_later_reprojected] |].
  apply (second_cycle_uses_first_pose doTransform_tf2 cycle_ok cycle_later fresh
           cycle_ok_reprojected cycle_later_reprojected).
Defined.

Lemma odometry_frame_is_unused_witness :
  (last_pose fresh = last_pose fresh_other_odom /\
   camera_frame fresh = camera_frame fresh_other_odom /\
   footprint_frame fresh = footprint_frame fresh_other_odom /\
   bin_frame fresh = bin_frame fresh_other_odom) /\
  odometry_frame fresh <> odometry_frame fresh_other_odom /\
  snd (spin doTransform_tf2 [cycle_ok; cycle_later] fresh)
    = snd (spin doTransform_tf2 [cycle_ok; cycle_later] fresh_other_odom).
Proof.
  split; [repeat split |]. split; [discriminate |].
  apply (odometry_frame_is_unused doTransform_tf2 [cycle_ok; cycle_later]
           fresh fresh_other_odom eq_refl eq_refl eq_refl eq_refl).
Defined.

Lemma main_depends_on_three_parameters_witness :
  (no_params "~camera_frame"%string = odom_frame_param "~camera_frame"%string /\
   no_params "~footprint_frame"%string = odom_frame_param "~footprint_frame"%string /\
   no_params "~bin_frame"%string = odom_frame_param "~bin_frame"%string) /\
  snd (spin doTransform_tf2 [cycle_ok] (main_node no_params))
    = snd (spin doTransform_tf2 [cycle_ok] (main_node odom_frame_param)).
Proof.
  split; [repeat split |].
  apply (main_depends_on_three_parameters (T := R) doTransform_tf2
           no_params odom_frame_param [cycle_ok] eq_refl eq_refl eq_refl).
Defined.

End MoreExamples.

(** * The velocity block, in the operations of the arithmetic *)

Section Velocity.
Context {T : Type} `{Scalar T}.
Variable doTransform : PoseStamped T -> TransformStamped T -> PoseStamped T.
Local Open Scope scalar_scope.







End Velocity.

(** * Double arithmetic: what the callback computes on concrete inputs *)

Module DoubleFacts.
Import ros msgs Odom Double.
Import PrimFloat.
Local Open Scope float_scope.



(** X10.  The linear velocity does not go through libm: in double
    arithmetic it is the same for every implementation of [asin], [cos] and
    [atan2], whatever the two poses. *)
Lemma linear_estimate_any_libm (libm : Libm) (A B : PoseStamped float) :
  linear (estimate (H := DoubleScalar libm) A B)
  = linear (estimate (H := binary64) A B).
Proof.
  unfold estimate, twist_between, normalized, all_zero.
  cbv zeta. cbn [linear].
  cbv [s_eqb s_of_Z DoubleScalar binary64].
  destruct (_ && _)%bool; vm_compute; reflexivity.
Qed.


(** C1.  The stored pose is stamped 5 s and an accepted cycle computes a
    pose stamped 5 s.  The cycle is not rejected: one message is published
    and the stored pose is replaced.  With the stored pose at the origin the
    linear velocity is (inf, inf, NaN) and the angular velocity is NaN; with
    the stored pose equal to the new pose (identical sample, identical
    stamp) every component of the twist is NaN, the 0/0 of the claim
    carried through [0 * (1 / 0)].  With the stored pose stamped 8 s, later
    than the new one, the elapsed time is -3 s and the message carries the
    velocity (3, 4, 0) * (1 / -3). *)
Theorem degenerate_interval_publishes_non_finite_twist :
  twists (snd (run doTransform_tf2 (cycle (mkTime 5 0) marker_345) (node origin_5)))
    = [mkTwist (mkVector3 infinity infinity nan) (mkVector3 nan nan nan)] /\
  last_pose (fst (run doTransform_tf2 (cycle (mkTime 5 0) marker_345) (node origin_5)))
    = moved_5 /\
  toSec (stamp (ps_header moved_5)) - toSec (stamp (ps_header origin_5)) = 0 /\
  twists (snd (run doTransform_tf2 (cycle (mkTime 5 0) marker_345) (node moved_5)))
    = [mkTwist (mkVector3 nan nan nan) (mkVector3 nan nan nan)] /\
  stores (snd (run doTransform_tf2 (cycle (mkTime 5 0) marker_345) (node moved_5)))
    = [StoreLastPose moved_5] /\
  twists (snd (run doTransform_tf2 (cycle (mkTime 5 0) marker_345) (node origin_8)))
    = [mkTwist (mkVector3 (-1) (-0x1.5555555555555p+0) (-0)) (mkVector3 (-0) 0 (-0))] /\
  last_pose (fst (run doTransform_tf2 (cycle (mkTime 5 0) marker_345) (node origin_8)))
    = moved_5 /\
  toSec (stamp (ps_header moved_5)) - toSec (stamp (ps_header origin_8)) = -3.
Proof. repeat split; vm_compute; reflexivity. Qed.







End DoubleFacts.
